(** * Survival-analysis pricing page (app.py): loader, form, risk tiers, premium

    A shallow embedding of the decision logic of [app.py]: the artifact
    loader, the form built from the metadata's feature columns, the assembly
    of the feature vector, the three-way classification of the risk score and
    the premium derived from it.

    Python floats are IEEE-754 binary64 numbers; they are represented by
    [spec_float] at precision 53 and maximal exponent 1024, so comparisons
    and products are the ones the interpreter performs, NaN and infinities
    included.  Python strings are kept as their UTF-8 bytes. *)

From Stdlib Require Import ZArith NArith List String Ascii Bool Permutation Lia.
From Stdlib Require Import DecimalString.
From Stdlib Require Import Floats.SpecFloat Floats.PrimFloat Floats.FloatOps.
Import ListNotations.
Local Open Scope string_scope.
Local Open Scope Z_scope.

Set Implicit Arguments.

(** ** Binary64 numbers *)

Module F64.

Definition float := spec_float.

(** [float(z)] for a Python int [z]: rounding to nearest, ties to even. *)
Definition of_int (z : Z) : float := binary_normalize prec emax z 0 false.

Definition mul (x y : float) : float := SFmul prec emax x y.
Definition neg (x : float) : float := SFopp x.
Definition ltb (x y : float) : bool := SFltb x y.
Definition leb (x y : float) : bool := SFleb x y.

(** Neither NaN nor an infinity. *)
Definition is_finite (x : float) : bool :=
  match x with
  | S754_zero _ | S754_finite _ _ _ => true
  | S754_infinity _ | S754_nan => false
  end.

(** The decimal literals of the program, as the binary64 numbers the
    interpreter reads them as (0.1 and 0.8 are the nearest doubles). *)
Definition lit_0_5 : float := Eval vm_compute in Prim2SF 0x1p-1%float.
Definition lit_0_1 : float := Eval vm_compute in Prim2SF 0x1.999999999999ap-4%float.
Definition lit_0_8 : float := Eval vm_compute in Prim2SF 0x1.999999999999ap-1%float.
Definition lit_1_0 : float := Eval vm_compute in Prim2SF 0x1p0%float.
Definition lit_1_5 : float := Eval vm_compute in Prim2SF 0x1.8p0%float.

End F64.

(** ** Python numbers held by the form: [int] or [float] *)

Inductive value : Type :=
| PyInt (z : Z)
| PyFloat (f : F64.float).

Definition value_is_finite (v : value) : bool :=
  match v with
  | PyInt _ => true
  | PyFloat f => F64.is_finite f
  end.

(** ** Strings *)

Module Str.

Definition is_upper (c : ascii) : bool :=
  let n := N_of_ascii c in (65 <=? n)%N && (n <=? 90)%N.

Definition is_lower (c : ascii) : bool :=
  let n := N_of_ascii c in (97 <=? n)%N && (n <=? 122)%N.

Definition is_cased (c : ascii) : bool := is_upper c || is_lower c.

Definition to_upper (c : ascii) : ascii :=
  if is_lower c then ascii_of_N (N_of_ascii c - 32) else c.

Definition to_lower (c : ascii) : ascii :=
  if is_upper c then ascii_of_N (N_of_ascii c + 32) else c.

(** [s.replace('_', ' ')].  The byte 95 occurs in UTF-8 text only as the
    underscore itself, so the replacement is done byte by byte. *)
Fixpoint replace_underscores (s : string) : string :=
  match s with
  | EmptyString => EmptyString
  | String c rest =>
      String (if Ascii.eqb c "_" then " "%char else c) (replace_underscores rest)
  end.

(** Every character of [s] is an ASCII character (a byte below 128). *)
Fixpoint is_ascii (s : string) : bool :=
  match s with
  | EmptyString => true
  | String c rest => (N_of_ascii c <? 128)%N && is_ascii rest
  end.

(** [s.title()] for a string of ASCII characters ([is_ascii]): a cased
    character is upper-cased when the character before it is not cased,
    and lower-cased when it is; the cased characters of ASCII are the
    letters.  On other strings the interpreter re-cases through its Unicode
    tables ("état" becomes "État"), which this function does not do: it
    leaves bytes above 127 as they are, and what is proved of a title-cased
    name is stated for ASCII names only. *)
Fixpoint title_from (previous_is_cased : bool) (s : string) : string :=
  match s with
  | EmptyString => EmptyString
  | String c rest =>
      String (if previous_is_cased then to_lower c else to_upper c)
             (title_from (is_cased c) rest)
  end.

Definition title (s : string) : string := title_from false s.

(** [x in xs] for a list of strings. *)
Fixpoint mem (x : string) (xs : list string) : bool :=
  match xs with
  | [] => false
  | y :: rest => String.eqb x y || mem x rest
  end.

End Str.

(** ** Dictionaries

    A Python [dict] keeps its entries in insertion order and holds a key at
    most once.  [set] overwrites the value of a present key in place and
    appends an absent one. *)

Module Dict.

Section Ops.
Variable V : Type.

Definition t := list (string * V).

Fixpoint get (d : t) (k : string) : option V :=
  match d with
  | [] => None
  | (k', v) :: rest => if String.eqb k' k then Some v else get rest k
  end.

(** [d.get(k, default)] *)
Definition get_default (d : t) (k : string) (default : V) : V :=
  match get d k with
  | Some v => v
  | None => default
  end.

(** [d[k] = v] *)
Fixpoint set (d : t) (k : string) (v : V) : t :=
  match d with
  | [] => [(k, v)]
  | (k', v') :: rest =>
      if String.eqb k' k then (k', v) :: rest else (k', v') :: set rest k v
  end.

Definition keys (d : t) : list string := map fst d.

(** The invariant of every dictionary: no key twice. *)
Definition wf (d : t) : Prop := NoDup (keys d).
End Ops.

End Dict.

(** ** The static tables of the form (lines 89-119) *)

Definition feature_labels : Dict.t string :=
  [ ("fin", "💰 Situation Financière (0=Mauvaise, 1=Bonne)");
    ("age", "🎂 Âge (en années)");
    ("race", "👤 Origine (0=Autre, 1=Noir)");
    ("wexp", "💼 Expérience Professionnelle (0=Non, 1=Oui)");
    ("mar", "💍 Situation Maritale (0=Célibataire, 1=Marié)");
    ("paro", "👮 Libération Conditionnelle (0=Non, 1=Oui)");
    ("prio", "📋 Nombre d'Arrestations Antérieures");
    ("week", "📅 Semaines depuis la Libération");
    ("arrest", "🚨 Événement (0=Non, 1=Oui)") ].

Definition feature_descriptions : Dict.t string :=
  [ ("fin", "Stabilité financière de l'assuré");
    ("age", "Âge de l'assuré en années");
    ("race", "Catégorie démographique");
    ("wexp", "A une expérience de travail à temps plein");
    ("mar", "Statut marital");
    ("paro", "Libéré en conditionnelle");
    ("prio", "Nombre de condamnations antérieures") ].

Definition feature_ranges : Dict.t (Z * Z) :=
  [ ("fin", (0, 1));
    ("age", (18, 100));
    ("race", (0, 1));
    ("wexp", (0, 1));
    ("mar", (0, 1));
    ("paro", (0, 1));
    ("prio", (0, 20)) ].

Definition n_cols : nat := 3.

(** ** Widgets *)

Inductive widget : Type :=
| selectbox (label : string) (options : list Z) (index : nat)
            (key help : string)
| number_input (label : string) (min_value max_value value step : F64.float)
               (key help : string).

(** Lines 127-129. *)
Definition label_of (feature : string) : string :=
  Dict.get_default feature_labels feature
    (Str.title (Str.replace_underscores feature)).

Definition description_of (feature : string) : string :=
  Dict.get_default feature_descriptions feature ("Valeur pour " ++ feature).

Definition range_of (feature : string) : Z * Z :=
  Dict.get_default feature_ranges feature (0, 100).

(** Lines 131-148: the control created for one feature. *)
Definition control (feature : string) : widget :=
  let label := label_of feature in
  let description := description_of feature in
  let '(min_val, max_val) := range_of feature in
  if max_val =? 1 then
    selectbox label [0; 1] 0 feature description
  else
    number_input label
      (F64.of_int min_val)
      (F64.of_int max_val)
      (F64.of_int (min_val + (max_val - min_val) / 2))
      (if Str.mem feature ["age"; "prio"] then F64.lit_1_0 else F64.lit_0_1)
      feature description.

(** What a widget shows before the user touches it. *)
Definition initial_value (w : widget) : value :=
  match w with
  | selectbox _ options index _ _ => PyInt (nth index options 0)
  | number_input _ _ _ value _ _ _ => PyFloat value
  end.

(** What a widget can return: a select box one of its options, a number
    input a float between its bounds. *)
Definition admits (w : widget) (v : value) : bool :=
  match w, v with
  | selectbox _ options _ _ _, PyInt z => existsb (Z.eqb z) options
  | number_input _ min_value max_value _ _ _ _, PyFloat f =>
      F64.leb min_value f && F64.leb f max_value
  | _, _ => false
  end.


(** ** Artifacts and their loader (lines 15-30)

    The scaler and the model are opaque: the scaler maps the assembled row
    to a scaled row, the model maps a scaled row to the score read at
    [[0][0]] of its prediction.  [None] stands for a raised exception. *)

Definition Scaler := list value -> option (list F64.float).
Definition Model := list F64.float -> option F64.float.

Record Metadata : Type := { feature_cols : list string }.

Record Metrics : Type := {
  test_c_index : F64.float;
  train_c_index : F64.float;
  n_features : Z;
  dataset_size : Z
}.

(** What reading each of the four files gives; [None] when the read or the
    deserialisation raises. *)
Record files : Type := {
  deepsurv_model_h5 : option Model;
  scaler_pkl : option Scaler;
  metadata_pkl : option Metadata;
  metrics_pkl : option Metrics
}.

Notation "x <- e ;; k" :=
  (match e with Some x => k | None => None end)
  (at level 61, e at next level, right associativity).

Definition load_models (fs : files)
  : option (Model * Scaler * Metadata * Metrics) :=
  model <- deepsurv_model_h5 fs ;;
  scaler <- scaler_pkl fs ;;
  metadata <- metadata_pkl fs ;;
  metrics <- metrics_pkl fs ;;
  Some (model, scaler, metadata, metrics).

(** The flag set by the [try]/[except] around the loader. *)
Definition models_loaded (fs : files) : bool :=
  match load_models fs with
  | Some _ => true
  | None => false
  end.

(** ** Risk evaluation (lines 151-199) *)

Record band : Type := {
  risk_category : string;
  risk_class : string;
  risk_color : string;
  risk_emoji : string
}.

Definition classify (risk_score : F64.float) : band :=
  if F64.ltb risk_score (F64.neg F64.lit_0_5) then
    {| risk_category := "Faible"; risk_class := "risk-low";
       risk_color := "green"; risk_emoji := "✅" |}
  else if F64.ltb risk_score F64.lit_0_5 then
    {| risk_category := "Moyen"; risk_class := "risk-medium";
       risk_color := "orange"; risk_emoji := "⚠️" |}
  else
    {| risk_category := "Élevé"; risk_class := "risk-high";
       risk_color := "red"; risk_emoji := "🚨" |}.

Definition base_premium : Z := 1000.

Definition premium_multiplier (category : string) : F64.float :=
  if String.eqb category "Faible" then F64.lit_0_8
  else if String.eqb category "Moyen" then F64.lit_1_0
  else F64.lit_1_5.

Definition estimated_premium (category : string) : F64.float :=
  F64.mul (F64.of_int base_premium) (premium_multiplier category).

Record RiskResult : Type := {
  score : F64.float;
  tier : band;
  premium : F64.float
}.

Definition assess (risk_score : F64.float) : RiskResult :=
  let b := classify risk_score in
  {| score := risk_score; tier := b;
     premium := estimated_premium (risk_category b) |}.

(** Line 151. *)
Definition features_list (metadata : Metadata) (inputs : Dict.t value)
  : list value :=
  map (fun feat => Dict.get_default inputs feat (PyInt 0))
      (feature_cols metadata).

Definition evaluate (model : Model) (scaler : Scaler) (metadata : Metadata)
           (inputs : Dict.t value) : option RiskResult :=
  features_scaled <- scaler (features_list metadata inputs) ;;
  risk_score <- model features_scaled ;;
  Some (assess risk_score).

(** The three tiers of the specification and the names the program gives
    them. *)
Inductive Tier : Type := Low | Medium | High.

Definition category_name (t : Tier) : string :=
  match t with
  | Low => "Faible"
  | Medium => "Moyen"
  | High => "Élevé"
  end.

(** ** The page

    One run of the script, as the sequence of elements it sends to the
    page.  [answer] is what each widget returns in this run (the user's
    current entry), [clicked] whether the button was pressed.  Static text
    is kept by its first line; the sidebar block and the result panel are
    one element each, no property below depends on their layout. *)

Inductive element : Type :=
| st_markdown (body : string)
| st_title (body : string)
| st_subheader (body : string)
| st_error (body : string)
| st_sidebar (metrics : Metrics)          (* lines 74-83 *)
| st_column (col : nat) (w : widget)      (* a widget inside [with cols[col]] *)
| st_button (label : string)
| st_result (r : RiskResult)              (* lines 175-263 *)
| st_exception                            (* an exception nobody catches *)
| st_expander (label : string).

Definition is_interactive (e : element) : bool :=
  match e with
  | st_column _ _ | st_button _ | st_expander _ => true
  | _ => false
  end.

Definition is_error (e : element) : bool :=
  match e with
  | st_error _ => true
  | _ => false
  end.

(** Lines 124-148: the loop over [enumerate(feature_cols)], threading the
    dictionary [inputs] and emitting one widget per round.  Each widget is
    created with [key=feature], and the toolkit refuses a key used twice
    in a run: this is the loop of a column list without repetition
    ([NoDup]), and what is said of the controls it emits is stated for such
    lists. *)
Fixpoint form_loop (answer : widget -> value) (idx : nat)
         (features : list string) (inputs : Dict.t value)
  : Dict.t value * list element :=
  match features with
  | [] => (inputs, [])
  | feature :: rest =>
      let w := control feature in
      let inputs' := Dict.set inputs feature (answer w) in
      let '(final, shown) := form_loop answer (S idx) rest inputs' in
      (final, st_column (Nat.modulo idx n_cols) w :: shown)
  end.

Definition form (answer : widget -> value) (features : list string)
  : Dict.t value * list element :=
  form_loop answer 0 features [].

(** The same loop with the toolkit's check of the widget keys made
    explicit: [used] holds the keys taken so far in the run, and a widget
    call with a key already taken raises, which ends the loop; the controls
    emitted before stay on the page.  The flag tells whether the loop ran
    to its end. *)
Fixpoint form_loop_keyed (answer : widget -> value) (idx : nat)
         (features : list string) (inputs : Dict.t value) (used : list string)
  : (Dict.t value * list element) * bool :=
  match features with
  | [] => ((inputs, []), true)
  | feature :: rest =>
      if Str.mem feature used then ((inputs, []), false)
      else
        let w := control feature in
        let inputs' := Dict.set inputs feature (answer w) in
        let '((final, shown), completed) :=
          form_loop_keyed answer (S idx) rest inputs' (feature :: used) in
        ((final, st_column (Nat.modulo idx n_cols) w :: shown), completed)
  end.

Definition header : list element :=
  [ st_markdown "<style>";
    st_title "🧬 Survival Analysis - DeepSurv";
    st_markdown "### Prédiction de Risque pour Tarification d'Assurance-Vie";
    st_markdown "**Développé par** : Maram Chebbi | ESPRIT & IRA Le Mans";
    st_markdown "---" ].

Definition footer : list element :=
  [ st_markdown "---";
    st_expander "📚 À propos du modèle DeepSurv";
    st_expander "🔬 Exemples de Profils";
    st_markdown "---";
    st_markdown "**📧 Contact**" ].

Definition load_failure : string :=
  "⚠️ Modèles non chargés. Veuillez uploader les fichiers requis.".

(** The run of the script.  The form is the one of [form_loop]: the run of
    a metadata whose columns are distinct. *)
Definition script (fs : files) (answer : widget -> value) (clicked : bool)
  : list element :=
  header ++
  match load_models fs with
  | None => [st_error load_failure]       (* then [st.stop()] *)
  | Some (model, scaler, metadata, metrics) =>
      let '(inputs, shown) := form answer (feature_cols metadata) in
      [st_sidebar metrics; st_subheader "📝 Informations sur l'Assuré"]
      ++ shown
      ++ [st_button "🧬 Analyser le Risque"]
      ++ (if clicked then
            match evaluate model scaler metadata inputs with
            | Some r => st_result r :: footer
            | None => [st_exception]
            end
          else footer)
  end.

(** The pricing table of the specification: multiplier and premium (in
    currency units) per tier. *)
Definition spec_multiplier (t : Tier) : F64.float :=
  match t with
  | Low => F64.lit_0_8
  | Medium => F64.lit_1_0
  | High => F64.lit_1_5
  end.

Definition spec_premium (t : Tier) : Z :=
  match t with
  | Low => 800
  | Medium => 1000
  | High => 1500
  end.

(** The scaler and the model were fitted on rows of the width of the
    metadata's column list: on such a row of finite numbers neither call
    raises. *)
Definition fitted (model : Model) (scaler : Scaler) (metadata : Metadata)
  : Prop :=
  forall row : list value,
    List.length row = List.length (feature_cols metadata) ->
    forallb value_is_finite row = true ->
    exists features_scaled risk_score,
      scaler row = Some features_scaled
      /\ model features_scaled = Some risk_score.

(** Two input vectors hold the same thing for every metadata column. *)
Definition agree_on (features : list string) (inputs1 inputs2 : Dict.t value)
  : Prop :=
  forall feat, In feat features -> Dict.get inputs1 feat = Dict.get inputs2 feat.

(** ** Arithmetic on numbers of mixed type

    An int operand of a float operation is converted first; the conversion
    raises for an int beyond the range of doubles. *)

Definition float_sub (x y : F64.float) : F64.float := SFsub prec emax x y.
Definition float_add (x y : F64.float) : F64.float := SFadd prec emax x y.

Definition to_float (v : value) : option F64.float :=
  match v with
  | PyFloat f => Some f
  | PyInt z =>
      let f := F64.of_int z in
      if F64.is_finite f then Some f else None
  end.

(** [x - y] *)
Definition py_sub (x y : value) : option value :=
  match x, y with
  | PyInt a, PyInt b => Some (PyInt (a - b))
  | _, _ =>
      a <- to_float x ;;
      b <- to_float y ;;
      Some (PyFloat (float_sub a b))
  end.

(** [x + y] *)
Definition py_add (x y : value) : option value :=
  match x, y with
  | PyInt a, PyInt b => Some (PyInt (a + b))
  | _, _ =>
      a <- to_float x ;;
      b <- to_float y ;;
      Some (PyFloat (float_add a b))
  end.

(** ** Fixed-point formatting: [f"{x:.kf}"]

    The exact value of the double, rounded to [k] decimals, ties to even;
    the sign of a negative number is kept even when all digits shown are
    zero. *)

Definition round_half_even (num den : Z) : Z :=
  let q := num / den in
  let r := num mod den in
  match 2 * r ?= den with
  | Lt => q
  | Gt => q + 1
  | Eq => if Z.even q then q else q + 1
  end.

(** The integer nearest to [m * 2^e * 10^k]. *)
Definition scaled_round (k : nat) (m : positive) (e : Z) : Z :=
  let scaled := Zpos m * 10 ^ Z.of_nat k in
  if 0 <=? e then scaled * 2 ^ e
  else round_half_even scaled (2 ^ (- e)).

Definition decimal (n : Z) : string :=
  NilZero.string_of_uint (N.to_uint (Z.to_N n)).

Fixpoint zeros (n : nat) : string :=
  match n with
  | O => EmptyString
  | S n' => String "0" (zeros n')
  end.

(** [s] padded with zeros on the left up to [k] characters. *)
Definition zfill (k : nat) (s : string) : string :=
  zeros (k - String.length s) ++ s.

Definition fixed_digits (k : nat) (q : Z) : string :=
  match k with
  | O => decimal q
  | S _ =>
      decimal (q / 10 ^ Z.of_nat k) ++ "."
      ++ zfill k (decimal (q mod 10 ^ Z.of_nat k))
  end.

Definition format_fixed (k : nat) (x : F64.float) : string :=
  match x with
  | S754_nan => "nan"
  | S754_infinity s => (if s then "-" else "") ++ "inf"
  | S754_zero s => (if s then "-" else "") ++ fixed_digits k 0
  | S754_finite s m e =>
      (if s then "-" else "") ++ fixed_digits k (scaled_round k m e)
  end.

(** ** The result panel (lines 178-256) *)

(** The three metrics of lines 182, 187 and 202. *)
Definition category_text (b : band) : string :=
  risk_emoji b ++ " " ++ risk_category b.

Definition score_text (r : RiskResult) : string :=
  format_fixed 4 (score r).

Definition premium_text (r : RiskResult) : string :=
  "$" ++ format_fixed 2 (premium r) ++ "/an".

(** Lines 212-232: the kind of box the interpretation is shown in, with the
    first line of its text. *)
Inductive callout : Type := Success | Warning | Error.

Definition interpretation (category : string) : callout * string :=
  if String.eqb category "Faible" then
    (Success, "**Profil à Faible Risque** ✅")
  else if String.eqb category "Moyen" then
    (Warning, "**Profil à Risque Moyen** ⚠️")
  else
    (Error, "**Profil à Risque Élevé** 🚨").

(** Lines 246-252: the bands of the chart. *)
Definition risk_levels : list string := ["Faible"; "Moyen"; "Élevé"].

Definition risk_ranges : list value :=
  [PyInt (-2); PyFloat (F64.neg F64.lit_0_5); PyFloat F64.lit_0_5; PyInt 2].

Definition colors : list string := ["green"; "orange"; "red"].

(** One call of [ax.barh(y, width, left=..., color=...)]. *)
Record barh : Type := {
  bar_y : string;
  bar_width : value;
  bar_left : value;
  bar_color : string
}.

(** The loop over [range(len(risk_levels))]; an index out of range
    raises. *)
Fixpoint chart_loop (indices : list nat) : option (list barh) :=
  match indices with
  | [] => Some []
  | i :: rest =>
      level <- nth_error risk_levels i ;;
      upper <- nth_error risk_ranges (i + 1) ;;
      lower <- nth_error risk_ranges i ;;
      width <- py_sub upper lower ;;
      color <- nth_error colors i ;;
      bars <- chart_loop rest ;;
      Some ({| bar_y := level; bar_width := width;
               bar_left := lower; bar_color := color |} :: bars)
  end.

Definition chart_bars : option (list barh) :=
  chart_loop (seq 0 (List.length risk_levels)).

(** A horizontal bar runs from [left] to [left + width]. *)
Definition bar_bounds (b : barh) : option (F64.float * F64.float) :=
  lo <- to_float (bar_left b) ;;
  right <- py_add (bar_left b) (bar_width b) ;;
  hi <- to_float right ;;
  Some (lo, hi).

(** The marker drawn at [x] falls on the bar, the left edge counting to the
    bar and the right edge to the next one. *)
Definition bar_covers (b : barh) (x : F64.float) : bool :=
  match bar_bounds b with
  | Some (lo, hi) => F64.leb lo x && F64.ltb x hi
  | None => false
  end.

(** ['_' in s] *)
Fixpoint has_underscore (s : string) : bool :=
  match s with
  | EmptyString => false
  | String c rest => Ascii.eqb c "_" || has_underscore rest
  end.

(** The column an element was placed in, if it is a widget of the form. *)
Definition column_of (e : element) : option nat :=
  match e with
  | st_column col _ => Some col
  | _ => None
  end.

(** How many widgets of a page sit in column [j]. *)
Definition count_in_column (j : nat) (page : list element) : nat :=
  List.length
    (filter (fun e => match column_of e with
                      | Some col => Nat.eqb col j
                      | None => false
                      end) page).

(** The widget key of a control: the [key=] argument. *)
Definition widget_key (w : widget) : string :=
  match w with
  | selectbox _ _ _ key _ => key
  | number_input _ _ _ _ _ key _ => key
  end.

(** * Properties *)

(** ** Order facts on binary64 numbers *)

Section FloatOrder.

Lemma SFcompare_antisym (x y : spec_float) :
  SFcompare y x = option_map CompOpp (SFcompare x y).
Proof.
  destruct x as [s1 | s1 | | s1 m1 e1], y as [s2 | s2 | | s2 m2 e2];
    try reflexivity;
    try (destruct s1; reflexivity);
    try (destruct s2; reflexivity);
    try (destruct s1, s2; reflexivity).
  cbn [SFcompare option_map].
  rewrite (Z.compare_antisym e1 e2).
  change (Pos.compare_cont Eq m2 m1) with (Pos.compare m2 m1).
  change (Pos.compare_cont Eq m1 m2) with (Pos.compare m1 m2).
  rewrite (Pos.compare_antisym m1 m2).
  destruct s1, s2; try reflexivity;
    destruct (e1 ?= e2); cbn; try reflexivity;
    destruct (m1 ?= m2)%positive; reflexivity.
Qed.

(** [x <= y] excludes [y < x]. *)
Lemma leb_excludes_ltb (x y : F64.float) :
  F64.leb x y = true -> F64.ltb y x = false.
Proof.
  unfold F64.leb, F64.ltb, SFleb, SFltb.
  rewrite (SFcompare_antisym x y).
  destruct (SFcompare x y) as [[ | | ] | ]; cbn; congruence.
Qed.

(** [x < y] excludes [y <= x]. *)
Lemma ltb_excludes_leb (x y : F64.float) :
  F64.ltb x y = true -> F64.leb y x = false.
Proof.
  unfold F64.leb, F64.ltb, SFleb, SFltb.
  rewrite (SFcompare_antisym x y).
  destruct (SFcompare x y) as [[ | | ] | ]; cbn; congruence.
Qed.

(** A number at or above 0.5 is not below -0.5. *)
Lemma above_half_not_below_neg_half (s : F64.float) :
  F64.leb F64.lit_0_5 s = true -> F64.ltb s (F64.neg F64.lit_0_5) = false.
Proof.
  destruct s as [sg | sg | | sg m e]; try destruct sg;
    cbv beta iota delta
      [F64.leb F64.ltb F64.neg F64.lit_0_5 SFleb SFltb SFcompare SFopp negb];
    congruence.
Qed.

End FloatOrder.

Lemma category_name_injective (t u : Tier) :
  category_name t = category_name u -> t = u.
Proof.
  destruct t, u; cbn; intros H; try reflexivity; discriminate H.
Qed.

(** ** C1: the three tiers and their boundaries *)

Ltac only_tier T :=
  exists T; split;
  [ reflexivity
  | let u := fresh "u" in
    let Hu := fresh "Hu" in
    intros u Hu; symmetry; exact (category_name_injective T u Hu) ].

(** C1. Every score gets exactly one tier: Low ("Faible") when
    [s < -0.5], Medium ("Moyen") when [-0.5 <= s < 0.5], High ("Élevé")
    when [s >= 0.5]; the score -0.5 is Medium and the score 0.5 is High.
    The comparisons are those of binary64, so a NaN, for which none of the
    three conditions holds, is covered by the uniqueness part only. *)
Theorem risk_category_tiers (s : F64.float) :
  (F64.ltb s (F64.neg F64.lit_0_5) = true ->
     risk_category (classify s) = category_name Low)
  /\ (F64.leb (F64.neg F64.lit_0_5) s = true /\ F64.ltb s F64.lit_0_5 = true ->
     risk_category (classify s) = category_name Medium)
  /\ (F64.leb F64.lit_0_5 s = true ->
     risk_category (classify s) = category_name High)
  /\ (exists t, risk_category (classify s) = category_name t
        /\ forall u, risk_category (classify s) = category_name u -> u = t)
  /\ risk_category (classify (F64.neg F64.lit_0_5)) = category_name Medium
  /\ risk_category (classify F64.lit_0_5) = category_name High.
Proof.
  repeat split.
  - intros Hlow. unfold classify. rewrite Hlow. reflexivity.
  - intros [Hge Hlt]. unfold classify.
    rewrite (leb_excludes_ltb _ _ Hge), Hlt. reflexivity.
  - intros Hge. unfold classify.
    rewrite (above_half_not_below_neg_half _ Hge).
    rewrite (leb_excludes_ltb _ _ Hge). reflexivity.
  - unfold classify.
    destruct (F64.ltb s (F64.neg F64.lit_0_5));
      [ only_tier Low | destruct (F64.ltb s F64.lit_0_5);
                        [ only_tier Medium | only_tier High ] ].
Qed.

(** Instance: the scores -2, 0 and 2 fall in the first, second and third
    tier. *)
Lemma risk_category_tiers_witness :
  risk_category (classify (F64.of_int (-2))) = "Faible"
  /\ risk_category (classify (F64.of_int 0)) = "Moyen"
  /\ risk_category (classify (F64.of_int 2)) = "Élevé".
Proof.
  split; [| split].
  - apply (proj1 (risk_category_tiers (F64.of_int (-2)))). reflexivity.
  - apply (proj1 (proj2 (risk_category_tiers (F64.of_int 0)))).
    split; reflexivity.
  - apply (proj1 (proj2 (proj2 (risk_category_tiers (F64.of_int 2))))).
    reflexivity.
Defined.

(** A NaN score compares false with both cut-offs and takes the last
    branch. *)
Example nan_takes_last_branch :
  risk_category (classify S754_nan) = category_name High.
Proof. reflexivity. Qed.

(** The scenarios of the specification: -1.2, 0.0 and 0.5. *)
Example scenario_scores :
  assess (Prim2SF (-0x1.3333333333333p0)%float)
  = {| score := Prim2SF (-0x1.3333333333333p0)%float;
       tier := {| risk_category := "Faible"; risk_class := "risk-low";
                  risk_color := "green"; risk_emoji := "✅" |};
       premium := F64.of_int 800 |}
  /\ risk_category (tier (assess (F64.of_int 0))) = "Moyen"
  /\ premium (assess (F64.of_int 0)) = F64.of_int 1000
  /\ risk_category (tier (assess F64.lit_0_5)) = "Élevé"
  /\ premium (assess F64.lit_0_5) = F64.of_int 1500.
Proof. repeat split; vm_compute; reflexivity. Qed.

(** ** C2: the premium *)

(** C2. The premium is 1000 times the multiplier of the tier, the
    multipliers are 0.8, 1.0 and 1.5, and the products are the doubles
    800.0, 1000.0 and 1500.0; whatever the score, the premium of an
    assessment is the one of its tier, no input enters it. *)
Theorem premium_by_tier :
  (forall t : Tier,
      premium_multiplier (category_name t) = spec_multiplier t
      /\ estimated_premium (category_name t)
         = F64.mul (F64.of_int 1000) (spec_multiplier t)
      /\ estimated_premium (category_name t) = F64.of_int (spec_premium t))
  /\ (forall risk_score : F64.float,
        exists t : Tier,
          risk_category (tier (assess risk_score)) = category_name t
          /\ premium (assess risk_score) = F64.of_int (spec_premium t)).
Proof.
  split.
  - intros []; repeat split; vm_compute; reflexivity.
  - intros risk_score. unfold assess, classify. cbn [tier premium].
    destruct (F64.ltb risk_score (F64.neg F64.lit_0_5));
      [ exists Low | destruct (F64.ltb risk_score F64.lit_0_5);
                     [ exists Medium | exists High ] ];
      split; vm_compute; reflexivity.
Qed.

(** ** Facts on dictionaries *)

Section DictFacts.
Variable V : Type.
Implicit Types (d : Dict.t V) (k : string) (v : V).

Lemma get_In d k v : Dict.get d k = Some v -> In (k, v) d.
Proof.
  induction d as [| [k' v'] d IH]; cbn; [discriminate |].
  destruct (String.eqb k' k) eqn:E.
  - apply String.eqb_eq in E. intros [= ->]. left. now subst.
  - intros H. right. now apply IH.
Qed.

Lemma get_None_keys d k : Dict.get d k = None -> ~ In k (Dict.keys d).
Proof.
  induction d as [| [k' v'] d IH]; cbn; [tauto |].
  destruct (String.eqb k' k) eqn:E; [discriminate |].
  apply String.eqb_neq in E. intros H [Hk | Hin]; [congruence |].
  now apply IH.
Qed.

Lemma In_get d k v : Dict.wf d -> In (k, v) d -> Dict.get d k = Some v.
Proof.
  unfold Dict.wf.
  induction d as [| [k' v'] d IH]; cbn; [tauto |].
  intros Hnd [Heq | Hin]; inversion Hnd as [| ? ? Hfresh Hrest]; subst.
  - injection Heq as -> ->. now rewrite String.eqb_refl.
  - destruct (String.eqb k' k) eqn:E; [| now apply IH].
    apply String.eqb_eq in E. subst k'. exfalso. apply Hfresh.
    change k with (fst (k, v)). now apply in_map.
Qed.

(** Reading a key does not depend on where its entry is stored. *)
Lemma get_permutation d d' k :
  Dict.wf d -> Permutation d d' -> Dict.get d' k = Dict.get d k.
Proof.
  intros Hwf Hperm.
  assert (Hwf' : Dict.wf d').
  { unfold Dict.wf, Dict.keys in *.
    eapply Permutation_NoDup; [| exact Hwf]. now apply Permutation_map. }
  destruct (Dict.get d k) as [v |] eqn:Hd.
  - apply In_get; [assumption |].
    eapply Permutation_in; [exact Hperm |]. now apply get_In.
  - destruct (Dict.get d' k) as [v' |] eqn:Hd'; [| reflexivity].
    apply get_In in Hd'.
    apply (Permutation_in _ (Permutation_sym Hperm)) in Hd'.
    apply In_get in Hd'; [congruence | exact Hwf].
Qed.

Lemma get_set_same d k v : Dict.get (Dict.set d k v) k = Some v.
Proof.
  induction d as [| [k' v'] d IH]; cbn.
  - now rewrite String.eqb_refl.
  - destruct (String.eqb k' k) eqn:E; cbn; now rewrite E.
Qed.

Lemma get_set_other d k k' v :
  k <> k' -> Dict.get (Dict.set d k v) k' = Dict.get d k'.
Proof.
  intros Hne. induction d as [| [k0 v0] d IH]; cbn.
  - apply String.eqb_neq in Hne. now rewrite Hne.
  - destruct (String.eqb k0 k) eqn:E; cbn.
    + apply String.eqb_eq in E. subst k0.
      apply String.eqb_neq in Hne. now rewrite Hne.
    + now rewrite IH.
Qed.



End DictFacts.

(** ** C3, C4, C6: the feature vector and the evaluation *)

Lemma features_list_length (metadata : Metadata) (inputs : Dict.t value) :
  List.length (features_list metadata inputs)
  = List.length (feature_cols metadata).
Proof. unfold features_list. apply length_map. Qed.

Lemma get_default_finite (inputs : Dict.t value) (feat : string) :
  forallb value_is_finite (map snd inputs) = true ->
  value_is_finite (Dict.get_default inputs feat (PyInt 0)) = true.
Proof.
  intros Hfin. unfold Dict.get_default.
  destruct (Dict.get inputs feat) as [v |] eqn:Hget; [| reflexivity].
  apply get_In in Hget.
  rewrite forallb_forall in Hfin. apply Hfin.
  change v with (snd (feat, v)). now apply in_map.
Qed.

Lemma features_list_finite (metadata : Metadata) (inputs : Dict.t value) :
  forallb value_is_finite (map snd inputs) = true ->
  forallb value_is_finite (features_list metadata inputs) = true.
Proof.
  intros Hfin. unfold features_list.
  induction (feature_cols metadata) as [| feat rest IH]; cbn; [reflexivity |].
  now rewrite (get_default_finite _ feat Hfin), IH.
Qed.

Lemma features_list_ext (metadata : Metadata) (inputs1 inputs2 : Dict.t value) :
  agree_on (feature_cols metadata) inputs1 inputs2 ->
  features_list metadata inputs1 = features_list metadata inputs2.
Proof.
  intros Hagree. unfold features_list. apply map_ext_in.
  intros feat Hin. unfold Dict.get_default. now rewrite (Hagree feat Hin).
Qed.

(** C3. The vector given to the scaler lists the features in the order of
    the metadata's column list, position [i] holding what the input vector
    has for column [i]; storing the entries of the input vector in another
    order gives the same vector. *)
Theorem features_list_order_stable
        (metadata : Metadata) (inputs inputs' : Dict.t value) :
  Dict.wf inputs ->
  Permutation inputs inputs' ->
  features_list metadata inputs' = features_list metadata inputs
  /\ forall i : nat,
      nth_error (features_list metadata inputs') i
      = option_map (fun feat => Dict.get_default inputs feat (PyInt 0))
                   (nth_error (feature_cols metadata) i).
Proof.
  intros Hwf Hperm.
  assert (Heq : features_list metadata inputs' = features_list metadata inputs).
  { apply features_list_ext. intros feat _.
    now apply get_permutation. }
  split; [exact Heq |].
  intros i. rewrite Heq. unfold features_list. apply nth_error_map.
Qed.

(** Instance: a two-entry input vector stored in its two possible
    orders. *)
Lemma features_list_order_stable_witness :
  features_list {| feature_cols := ["fin"; "age"] |}
                [("fin", PyInt 1); ("age", PyInt 30)]
  = features_list {| feature_cols := ["fin"; "age"] |}
                  [("age", PyInt 30); ("fin", PyInt 1)].
Proof.
  apply (@features_list_order_stable
           {| feature_cols := ["fin"; "age"] |}
           [("age", PyInt 30); ("fin", PyInt 1)]
           [("fin", PyInt 1); ("age", PyInt 30)]).
  - unfold Dict.wf. cbn. repeat constructor; cbn; intuition discriminate.
  - apply perm_swap.
Defined.

(** C4. A column of the metadata with no entry in the input vector is read
    as the int 0 at its position, and the evaluation still returns a
    result (the scaler and model being fitted for the width of the column
    list, and the entries present being finite numbers). *)
Theorem missing_feature_defaults_to_zero
        (model : Model) (scaler : Scaler) (metadata : Metadata)
        (inputs : Dict.t value) :
  fitted model scaler metadata ->
  forallb value_is_finite (map snd inputs) = true ->
  (forall (i : nat) (feat : string),
      nth_error (feature_cols metadata) i = Some feat ->
      Dict.get inputs feat = None ->
      nth_error (features_list metadata inputs) i = Some (PyInt 0))
  /\ exists r : RiskResult, evaluate model scaler metadata inputs = Some r.
Proof.
  intros Hfit Hfin. split.
  - intros i feat Hcol Hmiss. unfold features_list.
    rewrite nth_error_map, Hcol. cbn. unfold Dict.get_default.
    now rewrite Hmiss.
  - destruct (Hfit (features_list metadata inputs)
                   (features_list_length metadata inputs)
                   (features_list_finite metadata inputs Hfin))
      as (scaled & risk_score & Hscale & Hpredict).
    exists (assess risk_score). unfold evaluate.
    now rewrite Hscale, Hpredict.
Qed.

(** Instance: the column "age" absent from the input vector, a scaler
    that maps every entry to 0 and a model that answers 0. *)
Lemma missing_feature_defaults_to_zero_witness :
  nth_error (features_list {| feature_cols := ["fin"; "age"] |}
                           [("fin", PyInt 1)]) 1
  = Some (PyInt 0)
  /\ exists r : RiskResult,
      evaluate (fun _ => Some (F64.of_int 0))
               (fun row => Some (map (fun _ => F64.of_int 0) row))
               {| feature_cols := ["fin"; "age"] |}
               [("fin", PyInt 1)]
      = Some r.
Proof.
  destruct (@missing_feature_defaults_to_zero
              (fun _ => Some (F64.of_int 0))
              (fun row => Some (map (fun _ => F64.of_int 0) row))
              {| feature_cols := ["fin"; "age"] |}
              [("fin", PyInt 1)]) as [Hzero Hres].
  - intros row _ _. eexists. eexists. split; reflexivity.
  - reflexivity.
  - split; [| exact Hres].
    apply (Hzero 1%nat "age"); reflexivity.
Defined.

(** C6. Two evaluations with the same artifacts on input vectors that hold
    the same thing for every metadata column (in particular on one and the
    same input vector) end the same way, and when they return results
    these have the same score, tier and premium. *)
Theorem evaluate_deterministic
        (model : Model) (scaler : Scaler) (metadata : Metadata)
        (inputs1 inputs2 : Dict.t value) :
  agree_on (feature_cols metadata) inputs1 inputs2 ->
  evaluate model scaler metadata inputs1 = evaluate model scaler metadata inputs2
  /\ forall r1 r2 : RiskResult,
      evaluate model scaler metadata inputs1 = Some r1 ->
      evaluate model scaler metadata inputs2 = Some r2 ->
      score r1 = score r2 /\ tier r1 = tier r2 /\ premium r1 = premium r2.
Proof.
  intros Hagree.
  assert (Heq : evaluate model scaler metadata inputs1
                = evaluate model scaler metadata inputs2).
  { unfold evaluate. now rewrite (features_list_ext metadata Hagree). }
  split; [exact Heq |].
  intros r1 r2 H1 H2. rewrite Heq, H2 in H1.
  injection H1 as <-. repeat split.
Qed.

(** Instance: two input vectors that differ only outside the metadata's
    columns. *)
Lemma evaluate_deterministic_witness :
  evaluate (fun _ => Some F64.lit_0_5)
           (fun row => Some (map (fun _ => F64.of_int 0) row))
           {| feature_cols := ["fin"] |}
           [("fin", PyInt 1); ("note", PyInt 7)]
  = evaluate (fun _ => Some F64.lit_0_5)
             (fun row => Some (map (fun _ => F64.of_int 0) row))
             {| feature_cols := ["fin"] |}
             [("fin", PyInt 1)].
Proof.
  apply (@evaluate_deterministic
           (fun _ => Some F64.lit_0_5)
           (fun row => Some (map (fun _ => F64.of_int 0) row))
           {| feature_cols := ["fin"] |}
           [("fin", PyInt 1); ("note", PyInt 7)]
           [("fin", PyInt 1)]).
  intros feat [<- | []]. reflexivity.
Defined.

(** ** C5: the loader is all-or-nothing *)

(** C5. When the read of any of the four artifacts fails, the loader
    returns no artifact at all, the flag is false, and the page is the
    header followed by one error message: it holds exactly one error and
    nothing the user can interact with (no input control, no button, no
    expander). *)
Theorem load_failure_halts_page
        (fs : files) (answer : widget -> value) (clicked : bool) :
  deepsurv_model_h5 fs = None \/ scaler_pkl fs = None
  \/ metadata_pkl fs = None \/ metrics_pkl fs = None ->
  load_models fs = None
  /\ models_loaded fs = false
  /\ script fs answer clicked = (header ++ [st_error load_failure])%list
  /\ List.length (filter is_error (script fs answer clicked)) = 1%nat
  /\ existsb is_interactive (script fs answer clicked) = false.
Proof.
  intros Hfail.
  assert (Hload : load_models fs = None).
  { unfold load_models.
    destruct (deepsurv_model_h5 fs); [| reflexivity].
    destruct (scaler_pkl fs); [| reflexivity].
    destruct (metadata_pkl fs); [| reflexivity].
    destruct (metrics_pkl fs); [| reflexivity].
    destruct Hfail as [H | [H | [H | H]]]; discriminate H. }
  assert (Hpage : script fs answer clicked
                  = (header ++ [st_error load_failure])%list).
  { unfold script. now rewrite Hload. }
  repeat split.
  - exact Hload.
  - unfold models_loaded. now rewrite Hload.
  - exact Hpage.
  - rewrite Hpage. reflexivity.
  - rewrite Hpage. reflexivity.
Qed.

(** Instance: only the scaler file is unreadable. *)
Lemma load_failure_halts_page_witness :
  script {| deepsurv_model_h5 := Some (fun _ => Some F64.lit_0_5);
            scaler_pkl := None;
            metadata_pkl := Some {| feature_cols := ["fin"; "age"] |};
            metrics_pkl := Some {| test_c_index := F64.lit_0_8;
                                   train_c_index := F64.lit_0_8;
                                   n_features := 2;
                                   dataset_size := 432 |} |}
         initial_value true
  = (header ++ [st_error load_failure])%list.
Proof.
  apply (@load_failure_halts_page
           {| deepsurv_model_h5 := Some (fun _ => Some F64.lit_0_5);
              scaler_pkl := None;
              metadata_pkl := Some {| feature_cols := ["fin"; "age"] |};
              metrics_pkl := Some {| test_c_index := F64.lit_0_8;
                                     train_c_index := F64.lit_0_8;
                                     n_features := 2;
                                     dataset_size := 432 |} |}
           initial_value true).
  right. left. reflexivity.
Defined.

(** ** C9: one control per feature, three columns filled in turn *)

Lemma form_loop_cons (answer : widget -> value) (idx : nat)
      (feature : string) (rest : list string) (inputs : Dict.t value) :
  form_loop answer idx (feature :: rest) inputs
  = (fst (form_loop answer (S idx) rest
                    (Dict.set inputs feature (answer (control feature)))),
     st_column (Nat.modulo idx n_cols) (control feature)
     :: snd (form_loop answer (S idx) rest
                       (Dict.set inputs feature (answer (control feature))))).
Proof.
  cbn [form_loop].
  now destruct (form_loop answer (S idx) rest
                          (Dict.set inputs feature (answer (control feature)))).
Qed.

Lemma form_loop_length (answer : widget -> value) (features : list string) :
  forall (idx : nat) (inputs : Dict.t value),
    List.length (snd (form_loop answer idx features inputs))
    = List.length features.
Proof.
  induction features as [| feature rest IH]; intros idx inputs.
  - reflexivity.
  - rewrite form_loop_cons. cbn [snd List.length]. now rewrite IH.
Qed.

Lemma form_loop_nth (answer : widget -> value) (features : list string) :
  forall (idx : nat) (inputs : Dict.t value) (i : nat) (feature : string),
    nth_error features i = Some feature ->
    nth_error (snd (form_loop answer idx features inputs)) i
    = Some (st_column (Nat.modulo (idx + i) n_cols) (control feature)).
Proof.
  induction features as [| f rest IH]; intros idx inputs i feature Hnth.
  - destruct i; discriminate Hnth.
  - rewrite form_loop_cons. cbn [snd].
    destruct i as [| i]; cbn [nth_error] in *.
    + injection Hnth as ->. now rewrite Nat.add_0_r.
    + rewrite (IH (S idx) _ i feature Hnth).
      now rewrite Nat.add_succ_r.
Qed.

(** C9. For a list of distinct features, the form holds one control per
    feature of the list, in the order of the list, and the control of the
    feature at index [i] is placed in column [i mod 3] of the three
    columns. *)
Theorem form_round_robin (answer : widget -> value) (features : list string) :
  NoDup features ->
  n_cols = 3%nat
  /\ List.length (snd (form answer features)) = List.length features
  /\ forall (i : nat) (feature : string),
      nth_error features i = Some feature ->
      nth_error (snd (form answer features)) i
      = Some (st_column (Nat.modulo i 3) (control feature)).
Proof.
  intros _. split; [reflexivity | split].
  - apply form_loop_length.
  - intros i feature Hnth. unfold form.
    now rewrite (form_loop_nth answer features 0 [] i Hnth).
Qed.

(** Instance: the fifth of five features goes to column 1. *)
Lemma form_round_robin_witness :
  nth_error (snd (form initial_value ["fin"; "age"; "race"; "wexp"; "mar"])) 4
  = Some (st_column 1 (control "mar")).
Proof.
  assert (Hnd : NoDup ["fin"; "age"; "race"; "wexp"; "mar"])
    by (repeat constructor; cbn; intuition discriminate).
  apply (proj2 (proj2 (@form_round_robin
                         initial_value
                         ["fin"; "age"; "race"; "wexp"; "mar"] Hnd))
           4%nat "mar").
  reflexivity.
Defined.

(** ** C7: the control of a feature *)

Lemma control_binary (feature : string) (lo : Z) :
  range_of feature = (lo, 1) ->
  control feature
  = selectbox (label_of feature) [0; 1] 0 feature (description_of feature).
Proof. intros Hrange. unfold control. now rewrite Hrange. Qed.

Lemma control_continuous (feature : string) (lo hi : Z) :
  range_of feature = (lo, hi) ->
  hi <> 1 ->
  control feature
  = number_input (label_of feature) (F64.of_int lo) (F64.of_int hi)
      (F64.of_int (lo + (hi - lo) / 2))
      (if Str.mem feature ["age"; "prio"] then F64.lit_1_0 else F64.lit_0_1)
      feature (description_of feature).
Proof.
  intros Hrange Hhi. unfold control. rewrite Hrange.
  apply Z.eqb_neq in Hhi. now rewrite Hhi.
Qed.

(** C7. The control shown for a feature of a list of distinct features,
    the range of the feature being [(lo, hi)]: when [hi = 1], a choice between 0 and 1 that starts at 0;
    otherwise a numeric input bounded by [lo] and [hi] that starts at
    [lo + floor((hi - lo) / 2)], with step 1.0 for "age" and "prio" and
    step 0.1 for any other feature. *)
Theorem form_control_kinds
        (answer : widget -> value) (features : list string)
        (i : nat) (feature : string) (lo hi : Z) :
  NoDup features ->
  nth_error features i = Some feature ->
  range_of feature = (lo, hi) ->
  exists (col : nat) (w : widget),
    nth_error (snd (form answer features)) i = Some (st_column col w)
    /\ (hi = 1 ->
        w = selectbox (label_of feature) [0; 1] 0 feature
                      (description_of feature)
        /\ initial_value w = PyInt 0)
    /\ (hi <> 1 ->
        exists step : F64.float,
          w = number_input (label_of feature) (F64.of_int lo) (F64.of_int hi)
                (F64.of_int (lo + (hi - lo) / 2)) step
                feature (description_of feature)
          /\ initial_value w = PyFloat (F64.of_int (lo + (hi - lo) / 2))
          /\ (feature = "age" \/ feature = "prio" -> step = F64.lit_1_0)
          /\ (feature <> "age" -> feature <> "prio" -> step = F64.lit_0_1)).
Proof.
  intros _ Hnth Hrange.
  exists (Nat.modulo (0 + i) n_cols), (control feature).
  split; [unfold form; now apply form_loop_nth |].
  split.
  - intros ->. rewrite (control_binary _ Hrange). now split.
  - intros Hhi. rewrite (control_continuous _ Hrange Hhi).
    eexists. split; [reflexivity |]. split; [reflexivity |].
    cbn [Str.mem]. split.
    + intros [-> | ->]; reflexivity.
    + intros Hage Hprio.
      apply String.eqb_neq in Hage, Hprio. now rewrite Hage, Hprio.
Qed.

(** Instance: "age", second of two features, gets a numeric input that
    starts at 59. *)
Lemma form_control_kinds_witness :
  exists (col : nat) (w : widget),
    nth_error (snd (form initial_value ["fin"; "age"])) 1
    = Some (st_column col w)
    /\ initial_value w = PyFloat (F64.of_int 59).
Proof.
  assert (Hnd : NoDup ["fin"; "age"])
    by (repeat constructor; cbn; intuition discriminate).
  destruct (@form_control_kinds initial_value ["fin"; "age"] 1 "age" 18 100
              Hnd eq_refl eq_refl)
    as (col & w & Hshown & _ & Hcont).
  exists col, w. split; [exact Hshown |].
  destruct Hcont as (step & _ & Hinit & _); [discriminate |].
  exact Hinit.
Defined.

(** ** C8: what the form stores stays in range *)

Lemma range_of_cases (feature : string) :
  range_of feature = (0, 1) \/ range_of feature = (18, 100)
  \/ range_of feature = (0, 20) \/ range_of feature = (0, 100).
Proof.
  unfold range_of, Dict.get_default, feature_ranges.
  cbv beta iota delta [Dict.get].
  repeat match goal with
         | |- context [String.eqb ?key feature] =>
             destruct (String.eqb key feature)
         end;
    repeat (first [left; reflexivity | right]); reflexivity.
Qed.






(** ** C10: features without a declared range *)

Lemma unranged_keys (feature : string) :
  Dict.get feature_ranges feature = None ->
  String.eqb "fin" feature = false /\ String.eqb "age" feature = false
  /\ String.eqb "race" feature = false /\ String.eqb "wexp" feature = false
  /\ String.eqb "mar" feature = false /\ String.eqb "paro" feature = false
  /\ String.eqb "prio" feature = false.
Proof.
  unfold feature_ranges. cbv beta iota delta [Dict.get].
  repeat match goal with
         | |- context [String.eqb ?key feature] =>
             destruct (String.eqb key feature)
         end;
    intros H; try discriminate H; repeat split.
Qed.

(** C10, counterexample. "week" has no declared range, yet its label is
    the entry of the label table, not the title-cased name "Week". *)
Lemma week_label_is_not_title_cased :
  Dict.get feature_ranges "week" = None
  /\ label_of "week" = "📅 Semaines depuis la Libération"
  /\ Str.title (Str.replace_underscores "week") = "Week"
  /\ Str.title "week" = "Week"
  /\ label_of "week" <> Str.title (Str.replace_underscores "week")
  /\ label_of "week" <> Str.title "week".
Proof.
  repeat split; try reflexivity; vm_compute; discriminate.
Qed.

(** C10, amended. A feature absent from the range table gets the range
    (0, 100) and so a numeric input from 0.0 to 100.0 that starts at 50.0
    with step 0.1; its help text is "Valeur pour " followed by the name;
    its label, for a name of ASCII characters, is the name with
    underscores turned into spaces and then title-cased, unless the feature
    is "week" or "arrest", which the label table covers. *)
Theorem unranged_feature_fallback (feature : string) :
  Dict.get feature_ranges feature = None ->
  range_of feature = (0, 100)
  /\ description_of feature = "Valeur pour " ++ feature
  /\ control feature
     = number_input (label_of feature) (F64.of_int 0) (F64.of_int 100)
         (F64.of_int 50) F64.lit_0_1 feature ("Valeur pour " ++ feature)
  /\ initial_value (control feature) = PyFloat (F64.of_int 50)
  /\ (feature <> "week" -> feature <> "arrest" ->
      Str.is_ascii feature = true ->
      label_of feature = Str.title (Str.replace_underscores feature)).
Proof.
  intros Hnone.
  destruct (unranged_keys feature Hnone)
    as (Hfin & Hage & Hrace & Hwexp & Hmar & Hparo & Hprio).
  assert (Hrange : range_of feature = (0, 100)).
  { unfold range_of, Dict.get_default. now rewrite Hnone. }
  assert (Hhelp : description_of feature = "Valeur pour " ++ feature).
  { unfold description_of, Dict.get_default, feature_descriptions.
    cbv beta iota delta [Dict.get].
    now rewrite Hfin, Hage, Hrace, Hwexp, Hmar, Hparo, Hprio. }
  assert (Hctl : control feature
                 = number_input (label_of feature) (F64.of_int 0)
                     (F64.of_int 100) (F64.of_int 50) F64.lit_0_1 feature
                     ("Valeur pour " ++ feature)).
  { rewrite (@control_continuous feature 0 100 Hrange) by discriminate.
    rewrite Hhelp. cbn [Str.mem].
    rewrite (String.eqb_sym feature "age"), (String.eqb_sym feature "prio").
    rewrite Hage, Hprio. reflexivity. }
  repeat split; try assumption.
  - rewrite Hctl. reflexivity.
  - intros Hweek Harrest _.
    unfold label_of, Dict.get_default, feature_labels.
    cbv beta iota delta [Dict.get].
    rewrite Hfin, Hage, Hrace, Hwexp, Hmar, Hparo, Hprio.
    assert (Hw : String.eqb "week" feature = false)
      by (apply String.eqb_neq; congruence).
    assert (Ha : String.eqb "arrest" feature = false)
      by (apply String.eqb_neq; congruence).
    now rewrite Hw, Ha.
Qed.

(** Instance: "blood_pressure" is labelled "Blood Pressure". *)
Lemma unranged_feature_fallback_witness :
  control "blood_pressure"
  = number_input "Blood Pressure" (F64.of_int 0) (F64.of_int 100)
      (F64.of_int 50) F64.lit_0_1 "blood_pressure"
      "Valeur pour blood_pressure".
Proof.
  destruct (@unranged_feature_fallback "blood_pressure" eq_refl)
    as (_ & _ & Hctl & _ & Hlabel).
  rewrite Hctl, Hlabel by first [discriminate | reflexivity]. reflexivity.
Defined.

(** * Further properties of the script *)

(** ** The input vector the form builds (lines 124-151) *)

Lemma mem_In (x : string) (xs : list string) :
  Str.mem x xs = true <-> In x xs.
Proof.
  induction xs as [| y rest IH]; cbn; [split; [discriminate | tauto] |].
  rewrite orb_true_iff, IH, String.eqb_eq. split; intros [H | H]; auto.
Qed.

Lemma form_loop_get (answer : widget -> value) (features : list string) :
  forall (idx : nat) (inputs : Dict.t value) (feature : string),
    Dict.get (fst (form_loop answer idx features inputs)) feature
    = if Str.mem feature features
      then Some (answer (control feature))
      else Dict.get inputs feature.
Proof.
  induction features as [| f rest IH]; intros idx inputs feature.
  - reflexivity.
  - rewrite form_loop_cons. cbn [fst Str.mem]. rewrite IH.
    destruct (Str.mem feature rest); [now rewrite orb_true_r |].
    rewrite orb_false_r.
    destruct (String.eqb feature f) eqn:E.
    + apply String.eqb_eq in E. subst f. apply get_set_same.
    + apply String.eqb_neq in E. apply get_set_other. congruence.
Qed.

Lemma features_list_form (answer : widget -> value) (metadata : Metadata) :
  features_list metadata (fst (form answer (feature_cols metadata)))
  = map (fun feat => answer (control feat)) (feature_cols metadata).
Proof.
  unfold features_list, form. apply map_ext_in. intros feat Hin.
  unfold Dict.get_default. rewrite form_loop_get.
  apply mem_In in Hin. now rewrite Hin.
Qed.

(** X1. When the metadata names each column once, every column of the
    list has an entry in the input vector the form builds, and it is what the column's widget returned; so the row given
    to the scaler is the widgets' answers in the order of the metadata, and
    the default 0 of the lookup is never what a run of the page uses. *)
Theorem form_vector_is_answers (answer : widget -> value) (metadata : Metadata) :
  NoDup (feature_cols metadata) ->
  (forall feat : string,
      In feat (feature_cols metadata) ->
      Dict.get (fst (form answer (feature_cols metadata))) feat
      = Some (answer (control feat)))
  /\ features_list metadata (fst (form answer (feature_cols metadata)))
     = map (fun feat => answer (control feat)) (feature_cols metadata).
Proof.
  intros _.
  assert (Hget : forall feat : string,
             In feat (feature_cols metadata) ->
             Dict.get (fst (form answer (feature_cols metadata))) feat
             = Some (answer (control feat))).
  { intros feat Hin. unfold form. rewrite form_loop_get.
    apply mem_In in Hin. now rewrite Hin. }
  split; [exact Hget |].
  unfold features_list. apply map_ext_in. intros feat Hin.
  unfold Dict.get_default. now rewrite (Hget feat Hin).
Qed.

(** Instance: two distinct columns left at their initial values. *)
Lemma form_vector_is_answers_witness :
  features_list {| feature_cols := ["fin"; "age"] |}
                (fst (form initial_value ["fin"; "age"]))
  = [PyInt 0; PyFloat (F64.of_int 59)].
Proof.
  assert (Hnd : NoDup ["fin"; "age"])
    by (repeat constructor; cbn; intuition discriminate).
  refine (eq_trans
            (proj2 (@form_vector_is_answers
                      initial_value {| feature_cols := ["fin"; "age"] |} Hnd))
            _).
  reflexivity.
Defined.

Lemma keys_set_fresh (V : Type) (d : Dict.t V) (k : string) (v : V) :
  ~ In k (Dict.keys d) ->
  Dict.keys (Dict.set d k v) = (Dict.keys d ++ [k])%list.
Proof.
  unfold Dict.keys.
  induction d as [| [k0 v0] d IH]; cbn [Dict.set map fst app]; intros Hfresh.
  - reflexivity.
  - destruct (String.eqb k0 k) eqn:E.
    + apply String.eqb_eq in E. exfalso. apply Hfresh. now left.
    + cbn [map fst]. rewrite IH; [reflexivity |].
      intros Hin. apply Hfresh. now right.
Qed.

Lemma form_loop_keys (answer : widget -> value) (features : list string) :
  forall (idx : nat) (inputs : Dict.t value),
    NoDup (Dict.keys inputs ++ features) ->
    Dict.keys (fst (form_loop answer idx features inputs))
    = (Dict.keys inputs ++ features)%list.
Proof.
  induction features as [| f rest IH]; intros idx inputs Hnd.
  - cbn [form_loop fst]. now rewrite app_nil_r.
  - rewrite form_loop_cons. cbn [fst].
    assert (Hfresh : ~ In f (Dict.keys inputs)).
    { intros Hin. apply NoDup_remove_2 in Hnd. apply Hnd.
      apply in_or_app. now left. }
    rewrite IH; rewrite keys_set_fresh by exact Hfresh;
      rewrite <- app_assoc; [reflexivity | exact Hnd].
Qed.

(** X2. When the metadata names each column once, the entries of the input
    vector are stored in the order of the metadata: its keys are the
    column list. *)
Theorem form_keys_in_metadata_order
        (answer : widget -> value) (features : list string) :
  NoDup features ->
  Dict.keys (fst (form answer features)) = features.
Proof.
  intros Hnd. unfold form. now rewrite form_loop_keys.
Qed.

(** Instance: three distinct columns. *)
Lemma form_keys_in_metadata_order_witness :
  Dict.keys (fst (form initial_value ["age"; "fin"; "week"]))
  = ["age"; "fin"; "week"].
Proof.
  apply (@form_keys_in_metadata_order initial_value ["age"; "fin"; "week"]).
  repeat constructor; cbn; intuition discriminate.
Defined.

(** ** The bounds given to the widgets (lines 129-148) *)

(** X3. Whatever the feature name, the value its control starts with is one
    the control admits: the select box starts on one of its options, and
    the numeric input starts between its minimum and its maximum. *)
Theorem initial_value_admitted (feature : string) :
  admits (control feature) (initial_value (control feature)) = true.
Proof.
  destruct (range_of_cases feature) as [H | [H | [H | H]]].
  - rewrite (control_binary _ H). reflexivity.
  - rewrite (@control_continuous feature 18 100 H) by discriminate.
    cbn [initial_value admits]. vm_compute. reflexivity.
  - rewrite (@control_continuous feature 0 20 H) by discriminate.
    cbn [initial_value admits]. vm_compute. reflexivity.
  - rewrite (@control_continuous feature 0 100 H) by discriminate.
    cbn [initial_value admits]. vm_compute. reflexivity.
Qed.

(** ** The page as a whole (lines 26-30, 70-72, 121-155) *)

Lemma form_loop_only_columns (answer : widget -> value) (features : list string) :
  forall (idx : nat) (inputs : Dict.t value) (e : element),
    In e (snd (form_loop answer idx features inputs)) ->
    exists (col : nat) (feature : string),
      In feature features /\ e = st_column col (control feature).
Proof.
  induction features as [| f rest IH]; intros idx inputs e Hin.
  - destruct Hin.
  - rewrite form_loop_cons in Hin. cbn [snd] in Hin.
    destruct Hin as [<- | Hin].
    + exists (Nat.modulo idx n_cols), f. split; [now left | reflexivity].
    + destruct (IH _ _ _ Hin) as (col & feature & Hfeat & ->).
      exists col, feature. split; [now right | reflexivity].
Qed.

(** The run of the script once the four artifacts are loaded. *)
Lemma script_loaded (fs : files) (answer : widget -> value) (clicked : bool)
      (model : Model) (scaler : Scaler) (metadata : Metadata)
      (metrics : Metrics) :
  load_models fs = Some (model, scaler, metadata, metrics) ->
  script fs answer clicked
  = (header
     ++ [st_sidebar metrics; st_subheader "📝 Informations sur l'Assuré"]
     ++ snd (form answer (feature_cols metadata))
     ++ [st_button "🧬 Analyser le Risque"]
     ++ (if clicked then
           match evaluate model scaler metadata
                          (fst (form answer (feature_cols metadata))) with
           | Some r => st_result r :: footer
           | None => [st_exception]
           end
         else footer))%list.
Proof.
  intros Hload. unfold script. rewrite Hload.
  now destruct (form answer (feature_cols metadata)).
Qed.

Lemma load_models_Some (fs : files) (model : Model) (scaler : Scaler)
      (metadata : Metadata) (metrics : Metrics) :
  load_models fs = Some (model, scaler, metadata, metrics)
  <-> deepsurv_model_h5 fs = Some model /\ scaler_pkl fs = Some scaler
      /\ metadata_pkl fs = Some metadata /\ metrics_pkl fs = Some metrics.
Proof.
  unfold load_models.
  destruct (deepsurv_model_h5 fs), (scaler_pkl fs), (metadata_pkl fs),
    (metrics_pkl fs); split;
    try discriminate;
    try (intros (H1 & H2 & H3 & H4); discriminate).
  - intros [= -> -> -> ->]. repeat split.
  - intros ([= ->] & [= ->] & [= ->] & [= ->]). reflexivity.
Qed.

(** Decides membership in a list of elements written out in full. *)
Ltac in_static H :=
  cbn in H;
  repeat (let H' := fresh in destruct H as [H' | H]; [try discriminate H' |]);
  try contradiction.

Lemma result_shown_inv (fs : files) (answer : widget -> value)
      (clicked : bool) (r : RiskResult) :
  In (st_result r) (script fs answer clicked) ->
  clicked = true
  /\ exists model scaler metadata metrics,
      load_models fs = Some (model, scaler, metadata, metrics)
      /\ evaluate model scaler metadata
                  (fst (form answer (feature_cols metadata))) = Some r.
Proof.
  intros Hin.
  destruct (load_models fs) as [[[[model scaler] metadata] metrics] |] eqn:Hload.
  - rewrite (@script_loaded fs answer clicked _ _ _ _ Hload) in Hin.
    repeat (apply in_app_or in Hin; destruct Hin as [Hin | Hin]).
    + in_static Hin.
    + in_static Hin.
    + apply form_loop_only_columns in Hin.
      destruct Hin as (col & feature & _ & Habs). discriminate Habs.
    + in_static Hin.
    + destruct clicked; [| in_static Hin].
      split; [reflexivity |]. exists model, scaler, metadata, metrics.
      split; [reflexivity |].
      destruct (evaluate model scaler metadata
                         (fst (form answer (feature_cols metadata))))
        as [r' |]; [| in_static Hin].
      destruct Hin as [[= ->] | Hin]; [reflexivity | in_static Hin].
  - unfold script in Hin. rewrite Hload in Hin.
    apply in_app_or in Hin. destruct Hin as [Hin | Hin]; in_static Hin.
Qed.

(** X4. A result is on the page exactly when the button was pressed in this
    run, the four artifacts loaded, and the evaluation of the input vector
    the form built returned that result: no result without a click, and
    never a result kept from an earlier run. *)
Theorem result_shown_iff (fs : files) (answer : widget -> value)
        (clicked : bool) (r : RiskResult) :
  In (st_result r) (script fs answer clicked)
  <-> (clicked = true
       /\ exists model scaler metadata metrics,
           load_models fs = Some (model, scaler, metadata, metrics)
           /\ evaluate model scaler metadata
                       (fst (form answer (feature_cols metadata))) = Some r).
Proof.
  split; [apply result_shown_inv |].
  intros (-> & model & scaler & metadata & metrics & Hload & Heval).
  rewrite (@script_loaded fs answer true _ _ _ _ Hload), Heval.
  repeat (apply in_or_app; right). now left.
Qed.

(** X5. A result shown on the page comes from the widgets of this run: its
    score is what the model returned on the scaler's image of the widgets'
    answers taken in metadata order, its tier is the classification of
    that score, and its premium is 800, 1000 or 1500 according to the
    tier. *)
Theorem shown_result_is_consistent (fs : files) (answer : widget -> value)
        (clicked : bool) (r : RiskResult) :
  In (st_result r) (script fs answer clicked) ->
  exists model scaler metadata metrics features_scaled,
    load_models fs = Some (model, scaler, metadata, metrics)
    /\ scaler (map (fun feat => answer (control feat)) (feature_cols metadata))
       = Some features_scaled
    /\ model features_scaled = Some (score r)
    /\ tier r = classify (score r)
    /\ exists t : Tier,
        risk_category (tier r) = category_name t
        /\ premium r = F64.of_int (spec_premium t).
Proof.
  intros Hin.
  destruct (result_shown_inv Hin)
    as (_ & model & scaler & metadata & metrics & Hload & Heval).
  unfold evaluate in Heval.
  rewrite features_list_form in Heval.
  destruct (scaler (map (fun feat => answer (control feat))
                        (feature_cols metadata)))
    as [features_scaled |] eqn:Hscale; [| discriminate Heval].
  destruct (model features_scaled) as [risk_score |] eqn:Hpredict;
    [| discriminate Heval].
  injection Heval as <-.
  exists model, scaler, metadata, metrics, features_scaled.
  repeat (split; [first [assumption | reflexivity] |]).
  cbn [tier premium score assess].
  unfold classify.
  destruct (F64.ltb risk_score (F64.neg F64.lit_0_5));
    [ exists Low | destruct (F64.ltb risk_score F64.lit_0_5);
                   [ exists Medium | exists High ] ];
    split; vm_compute; reflexivity.
Qed.

(** Instance: a click on a page whose model answers 0.5. *)
Lemma shown_result_is_consistent_witness :
  exists t : Tier,
    risk_category (tier (assess F64.lit_0_5)) = category_name t
    /\ premium (assess F64.lit_0_5) = F64.of_int (spec_premium t).
Proof.
  destruct (@shown_result_is_consistent
              {| deepsurv_model_h5 := Some (fun _ => Some F64.lit_0_5);
                 scaler_pkl := Some (fun row => Some (map (fun _ => F64.lit_1_0) row));
                 metadata_pkl := Some {| feature_cols := ["fin"; "age"] |};
                 metrics_pkl := Some {| test_c_index := F64.lit_0_8;
                                        train_c_index := F64.lit_0_8;
                                        n_features := 2;
                                        dataset_size := 432 |} |}
              initial_value true (assess F64.lit_0_5))
    as (_ & _ & _ & _ & _ & _ & _ & _ & _ & Htier).
  - vm_compute. do 10 right. left. reflexivity.
  - exact Htier.
Defined.

(** X6. The page offers something to act on (a control, the button, an
    expander) exactly when the loader succeeded, that is when each of the
    four files could be read; the load-failure message is on the page
    exactly when it did not. *)
Theorem interactive_iff_loaded
        (fs : files) (answer : widget -> value) (clicked : bool) :
  existsb is_interactive (script fs answer clicked) = models_loaded fs
  /\ (In (st_error load_failure) (script fs answer clicked)
      <-> models_loaded fs = false)
  /\ (models_loaded fs = true
      <-> exists model scaler metadata metrics,
          deepsurv_model_h5 fs = Some model /\ scaler_pkl fs = Some scaler
          /\ metadata_pkl fs = Some metadata /\ metrics_pkl fs = Some metrics).
Proof.
  unfold models_loaded.
  destruct (load_models fs) as [[[[model scaler] metadata] metrics] |] eqn:Hload.
  - rewrite (@script_loaded fs answer clicked _ _ _ _ Hload).
    split; [| split].
    + rewrite !existsb_app. cbn [existsb is_interactive].
      now rewrite !orb_true_r.
    + split; [| discriminate]. intros Hin. exfalso.
      repeat (apply in_app_or in Hin; destruct Hin as [Hin | Hin]).
      * in_static Hin.
      * in_static Hin.
      * apply form_loop_only_columns in Hin.
        destruct Hin as (col & feature & _ & Habs). discriminate Habs.
      * in_static Hin.
      * destruct clicked; [| in_static Hin].
        destruct (evaluate model scaler metadata
                           (fst (form answer (feature_cols metadata))));
          in_static Hin.
    + split; [| reflexivity]. intros _.
      exists model, scaler, metadata, metrics.
      now apply load_models_Some.
  - unfold script. rewrite Hload. split; [reflexivity | split].
    + split; [reflexivity |]. intros _.
      apply in_or_app. right. now left.
    + split; [discriminate |].
      intros (model & scaler & metadata & metrics & Hall).
      apply load_models_Some in Hall. congruence.
Qed.

(** X7. An exception of the scaler or of the model is not caught: it is on
    the page exactly when the button was pressed, the artifacts loaded and
    the evaluation failed, and the run then stops there, with neither a
    result nor the two expanders of the page's foot. *)
Theorem evaluation_fault_aborts
        (fs : files) (answer : widget -> value) (clicked : bool) :
  (In st_exception (script fs answer clicked)
   <-> (clicked = true
        /\ exists model scaler metadata metrics,
            load_models fs = Some (model, scaler, metadata, metrics)
            /\ evaluate model scaler metadata
                        (fst (form answer (feature_cols metadata))) = None))
  /\ (In st_exception (script fs answer clicked) ->
      (forall r, ~ In (st_result r) (script fs answer clicked))
      /\ (forall label, ~ In (st_expander label) (script fs answer clicked))
      /\ last (script fs answer clicked) st_exception = st_exception).
Proof.
  assert (Hinv : In st_exception (script fs answer clicked) ->
                 clicked = true
                 /\ exists model scaler metadata metrics,
                     load_models fs = Some (model, scaler, metadata, metrics)
                     /\ evaluate model scaler metadata
                                 (fst (form answer (feature_cols metadata)))
                        = None).
  { intros Hin.
    destruct (load_models fs) as [[[[model scaler] metadata] metrics] |]
      eqn:Hload.
    - rewrite (@script_loaded fs answer clicked _ _ _ _ Hload) in Hin.
      repeat (apply in_app_or in Hin; destruct Hin as [Hin | Hin]).
      + in_static Hin.
      + in_static Hin.
      + apply form_loop_only_columns in Hin.
        destruct Hin as (col & feature & _ & Habs). discriminate Habs.
      + in_static Hin.
      + destruct clicked; [| in_static Hin].
        split; [reflexivity |]. exists model, scaler, metadata, metrics.
        split; [reflexivity |].
        destruct (evaluate model scaler metadata
                           (fst (form answer (feature_cols metadata))));
          [in_static Hin | reflexivity].
    - unfold script in Hin. rewrite Hload in Hin.
      apply in_app_or in Hin. destruct Hin as [Hin | Hin]; in_static Hin. }
  split; [split; [exact Hinv |] |].
  - intros (-> & model & scaler & metadata & metrics & Hload & Heval).
    rewrite (@script_loaded fs answer true _ _ _ _ Hload), Heval.
    repeat (apply in_or_app; right). now left.
  - intros Hin.
    destruct (Hinv Hin)
      as (-> & model & scaler & metadata & metrics & Hload & Heval).
    rewrite (@script_loaded fs answer true _ _ _ _ Hload), Heval.
    split; [| split].
    + intros r Hr.
      repeat (apply in_app_or in Hr; destruct Hr as [Hr | Hr]);
        try (in_static Hr).
      apply form_loop_only_columns in Hr.
      destruct Hr as (col & feature & _ & Habs). discriminate Habs.
    + intros label Hl.
      repeat (apply in_app_or in Hl; destruct Hl as [Hl | Hl]);
        try (in_static Hl).
      apply form_loop_only_columns in Hl.
      destruct Hl as (col & feature & _ & Habs). discriminate Habs.
    + rewrite !app_assoc. apply last_last.
Qed.

(** ** The three columns (lines 121-126) *)

Section ColumnBalance.
Local Open Scope nat_scope.

Lemma form_loop_columns (answer : widget -> value) (features : list string) :
  forall (idx : nat) (inputs : Dict.t value),
    map column_of (snd (form_loop answer idx features inputs))
    = map (fun i => Some (i mod n_cols)) (seq idx (List.length features)).
Proof.
  induction features as [| f rest IH]; intros idx inputs.
  - reflexivity.
  - rewrite form_loop_cons. cbn [snd map List.length seq column_of].
    now rewrite IH.
Qed.

Lemma count_in_column_map (j : nat) (page : list element) :
  count_in_column j page
  = List.length (filter (fun c => match c with
                                  | Some col => Nat.eqb col j
                                  | None => false
                                  end) (map column_of page)).
Proof.
  unfold count_in_column.
  induction page as [| e page IH]; cbn [filter map]; [reflexivity |].
  destruct (column_of e) as [col |]; [| exact IH].
  destruct (Nat.eqb col j); cbn [List.length]; now rewrite IH.
Qed.

Lemma third_step (n j : nat) :
  j < 3 ->
  (S n + 2 - j) / 3
  = (n + 2 - j) / 3 + (if Nat.eqb (n mod 3) j then 1 else 0).
Proof.
  intros Hj.
  pose proof (Nat.div_mod_eq (S n + 2 - j) 3).
  pose proof (Nat.div_mod_eq (n + 2 - j) 3).
  pose proof (Nat.div_mod_eq n 3).
  pose proof (Nat.mod_upper_bound (S n + 2 - j) 3 ltac:(lia)).
  pose proof (Nat.mod_upper_bound (n + 2 - j) 3 ltac:(lia)).
  pose proof (Nat.mod_upper_bound n 3 ltac:(lia)).
  destruct (Nat.eqb_spec (n mod 3) j) as [E | E]; lia.
Qed.

Lemma count_round_robin (j n : nat) :
  j < 3 ->
  List.length (filter (fun c => match c with
                                | Some col => Nat.eqb col j
                                | None => false
                                end)
                      (map (fun i => Some (i mod n_cols)) (seq 0 n)))
  = (n + 2 - j) / 3.
Proof.
  intros Hj. induction n as [| n IH].
  - cbn [seq map filter List.length].
    symmetry. apply Nat.div_small. lia.
  - rewrite seq_S, map_app, filter_app, length_app, IH, (third_step n Hj).
    rewrite Nat.add_0_l. cbn [map filter]. unfold n_cols.
    destruct (Nat.eqb (n mod 3) j); reflexivity.
Qed.

(** X8. For a list of distinct features, the three columns are filled
    evenly: of [n] controls, column [j]
    holds [(n + 2 - j) / 3], so the columns differ by at most one control
    and an earlier column never holds fewer than a later one; no control
    lands outside the three columns. *)
Theorem columns_are_balanced
        (answer : widget -> value) (features : list string) (j : nat) :
  NoDup features ->
  (j < 3 ->
   count_in_column j (snd (form answer features))
   = (List.length features + 2 - j) / 3)
  /\ (3 <= j -> count_in_column j (snd (form answer features)) = 0).
Proof.
  intros _.
  rewrite count_in_column_map. unfold form. rewrite form_loop_columns.
  split.
  - apply count_round_robin.
  - intros Hj. induction (seq 0 (List.length features)) as [| i l IH];
      [reflexivity |].
    cbn [map filter].
    pose proof (Nat.mod_upper_bound i n_cols ltac:(discriminate)) as Hlt.
    unfold n_cols in Hlt.
    destruct (Nat.eqb_spec (i mod n_cols) j) as [E | E];
      [unfold n_cols in E; lia | exact IH].
Qed.

(** Instance: seven controls go 3, 2 and 2 to the columns. *)
Lemma columns_are_balanced_witness :
  count_in_column 0
    (snd (form initial_value
               ["fin"; "age"; "race"; "wexp"; "mar"; "paro"; "prio"])) = 3
  /\ count_in_column 2
       (snd (form initial_value
                  ["fin"; "age"; "race"; "wexp"; "mar"; "paro"; "prio"])) = 2.
Proof.
  assert (Hnd : NoDup ["fin"; "age"; "race"; "wexp"; "mar"; "paro"; "prio"])
    by (repeat constructor; cbn; intuition discriminate).
  split.
  - apply (proj1 (@columns_are_balanced
                    initial_value
                    ["fin"; "age"; "race"; "wexp"; "mar"; "paro"; "prio"] 0
                    Hnd)).
    repeat constructor.
  - apply (proj1 (@columns_are_balanced
                    initial_value
                    ["fin"; "age"; "race"; "wexp"; "mar"; "paro"; "prio"] 2
                    Hnd)).
    repeat constructor.
Defined.

End ColumnBalance.

(** ** The chart and the tiers (lines 159-173, 246-252) *)

Section ChartBands.

Ltac float_cbv :=
  change (F64.of_int 2) with (S754_finite false 4503599627370496 (-51));
  change (F64.of_int (-2)) with (S754_finite true 4503599627370496 (-51));
  cbv beta iota delta
    [F64.leb F64.ltb F64.neg F64.lit_0_5 SFleb SFltb SFcompare SFopp negb].

Lemma SFcompare_total (x y : spec_float) :
  x <> S754_nan -> y <> S754_nan -> SFcompare x y <> None.
Proof.
  destruct x as [s1 | s1 | | s1 m1 e1], y as [s2 | s2 | | s2 m2 e2];
    intros Hx Hy; try congruence; unfold SFcompare; discriminate.
Qed.

Lemma leb_not_nan (a s : F64.float) : F64.leb a s = true -> s <> S754_nan.
Proof. intros H ->. destruct a; discriminate H. Qed.

Lemma ltb_not_nan (s a : F64.float) : F64.ltb s a = true -> a <> S754_nan.
Proof. intros H ->. destruct s; discriminate H. Qed.

(** Two numbers that are not NaN are comparable. *)
Lemma ltb_false_leb (x y : F64.float) :
  x <> S754_nan -> y <> S754_nan ->
  F64.ltb x y = false -> F64.leb y x = true.
Proof.
  intros Hx Hy. pose proof (SFcompare_total Hx Hy) as Htot.
  unfold F64.leb, F64.ltb, SFleb, SFltb.
  rewrite (SFcompare_antisym x y).
  destruct (SFcompare x y) as [[ | | ] | ]; cbn; congruence.
Qed.

Lemma below_neg_half_below_two (s : F64.float) :
  F64.ltb s (F64.neg F64.lit_0_5) = true -> F64.ltb s (F64.of_int 2) = true.
Proof.
  destruct s as [sg | sg | | sg m e]; try destruct sg; float_cbv;
    intros H; first [reflexivity | discriminate H].
Qed.

Lemma above_half_above_minus_two (s : F64.float) :
  F64.leb F64.lit_0_5 s = true -> F64.leb (F64.of_int (-2)) s = true.
Proof.
  destruct s as [sg | sg | | sg m e]; try destruct sg; float_cbv;
    intros H; first [reflexivity | discriminate H].
Qed.

Lemma above_neg_half_above_minus_two (s : F64.float) :
  F64.leb (F64.neg F64.lit_0_5) s = true -> F64.leb (F64.of_int (-2)) s = true.
Proof.
  destruct s as [sg | sg | | sg m e]; try destruct sg; float_cbv;
    intros H; try first [reflexivity | discriminate H].
  revert H.
  destruct (Z.compare_spec (-53) e), (Z.compare_spec (-51) e);
    try lia; intros H; first [reflexivity | discriminate H].
Qed.

Lemma below_half_below_two (s : F64.float) :
  F64.ltb s F64.lit_0_5 = true -> F64.ltb s (F64.of_int 2) = true.
Proof.
  destruct s as [sg | sg | | sg m e]; try destruct sg; float_cbv;
    intros H; try first [reflexivity | discriminate H].
  revert H.
  destruct (Z.compare_spec e (-53)), (Z.compare_spec e (-51));
    try lia; intros H; first [reflexivity | discriminate H].
Qed.

(** The bands the loop draws, with the ends of each. *)
Lemma chart_bars_bounds :
  exists b0 b1 b2 : barh,
    chart_bars = Some [b0; b1; b2]
    /\ (bar_bounds b0 = Some ((F64.of_int (-2)), F64.neg F64.lit_0_5)
        /\ bar_y b0 = "Faible" /\ bar_color b0 = "green")
    /\ (bar_bounds b1 = Some (F64.neg F64.lit_0_5, F64.lit_0_5)
        /\ bar_y b1 = "Moyen" /\ bar_color b1 = "orange")
    /\ (bar_bounds b2 = Some (F64.lit_0_5, (F64.of_int 2))
        /\ bar_y b2 = "Élevé" /\ bar_color b2 = "red").
Proof.
  do 3 eexists. split; [vm_compute; reflexivity |].
  repeat split; vm_compute; reflexivity.
Qed.

(** X9. The chart agrees with the classification: the loop draws three
    bands, a band on which the score's marker falls carries the name and
    the colour of the score's tier, and the marker falls on some band
    exactly when the score is at least -2 and below 2 (a score outside
    has a tier but no band). *)
Theorem chart_agrees_with_tiers :
  exists bars : list barh,
    chart_bars = Some bars
    /\ List.length bars = 3%nat
    /\ (forall (s : F64.float) (b : barh),
          In b bars -> bar_covers b s = true ->
          bar_y b = risk_category (classify s)
          /\ bar_color b = risk_color (classify s))
    /\ (forall s : F64.float,
          (exists b : barh, In b bars /\ bar_covers b s = true)
          <-> F64.leb (F64.of_int (-2)) s && F64.ltb s (F64.of_int 2) = true).
Proof.
  destruct chart_bars_bounds
    as (b0 & b1 & b2 & Hbars & (Hb0 & Hy0 & Hc0) & (Hb1 & Hy1 & Hc1)
        & (Hb2 & Hy2 & Hc2)).
  exists [b0; b1; b2]. split; [exact Hbars |]. split; [reflexivity |].
  split.
  - intros s b Hin Hcov. unfold bar_covers in Hcov.
    destruct Hin as [<- | [<- | [<- | []]]].
    + rewrite Hb0 in Hcov. apply andb_prop in Hcov as [_ Hlt].
      rewrite Hy0, Hc0. unfold classify. now rewrite Hlt.
    + rewrite Hb1 in Hcov. apply andb_prop in Hcov as [Hge Hlt].
      rewrite Hy1, Hc1. unfold classify.
      now rewrite (leb_excludes_ltb _ _ Hge), Hlt.
    + rewrite Hb2 in Hcov. apply andb_prop in Hcov as [Hge _].
      rewrite Hy2, Hc2. unfold classify.
      now rewrite (above_half_not_below_neg_half _ Hge),
        (leb_excludes_ltb _ _ Hge).
  - intros s. split.
    + intros (b & Hin & Hcov). unfold bar_covers in Hcov.
      destruct Hin as [<- | [<- | [<- | []]]].
      * rewrite Hb0 in Hcov. apply andb_prop in Hcov as [Hge Hlt].
        now rewrite Hge, (below_neg_half_below_two _ Hlt).
      * rewrite Hb1 in Hcov. apply andb_prop in Hcov as [Hge Hlt].
        now rewrite (above_neg_half_above_minus_two _ Hge),
          (below_half_below_two _ Hlt).
      * rewrite Hb2 in Hcov. apply andb_prop in Hcov as [Hge Hlt].
        now rewrite (above_half_above_minus_two _ Hge), Hlt.
    + intros Hin. apply andb_prop in Hin as [Hge Hlt].
      pose proof (@leb_not_nan (F64.of_int (-2)) s Hge) as Hs.
      destruct (F64.ltb s (F64.neg F64.lit_0_5)) eqn:Hlow.
      * exists b0. split; [now left |].
        unfold bar_covers. now rewrite Hb0, Hge, Hlow.
      * apply ltb_false_leb in Hlow; [| exact Hs | discriminate].
        destruct (F64.ltb s F64.lit_0_5) eqn:Hmid.
        -- exists b1. split; [right; now left |].
           unfold bar_covers. now rewrite Hb1, Hlow, Hmid.
        -- apply ltb_false_leb in Hmid; [| exact Hs | discriminate].
           exists b2. split; [right; right; now left |].
           unfold bar_covers. now rewrite Hb2, Hmid, Hlt.
Qed.

End ChartBands.

(** ** What the result panel shows (lines 159-232) *)

(** X10. Whatever the score, the premium metric reads "$800.00/an",
    "$1000.00/an" or "$1500.00/an" according to the tier, and the category
    metric is the tier's emoji followed by its name. *)
Theorem premium_text_by_tier (risk_score : F64.float) :
  exists t : Tier,
    risk_category (tier (assess risk_score)) = category_name t
    /\ premium_text (assess risk_score)
       = match t with
         | Low => "$800.00/an"
         | Medium => "$1000.00/an"
         | High => "$1500.00/an"
         end
    /\ category_text (tier (assess risk_score))
       = match t with
         | Low => "✅ Faible"
         | Medium => "⚠️ Moyen"
         | High => "🚨 Élevé"
         end.
Proof.
  unfold assess, classify. cbn [tier premium].
  destruct (F64.ltb risk_score (F64.neg F64.lit_0_5));
    [ exists Low | destruct (F64.ltb risk_score F64.lit_0_5);
                   [ exists Medium | exists High ] ];
    repeat split; vm_compute; reflexivity.
Qed.

(** X11. The attributes shown for a score never mix tiers: the category,
    the style class, the colour, the emoji, the multiplier and the kind of
    the interpretation box are those of one of three rows, the last row
    (error box, multiplier 1.5) being the one of every score that is not
    below 0.5, NaN included. *)
Theorem presentation_rows (risk_score : F64.float) :
  let b := classify risk_score in
  In (risk_category b, risk_class b, risk_color b, risk_emoji b,
      premium_multiplier (risk_category b),
      fst (interpretation (risk_category b)))
     [ ("Faible", "risk-low", "green", "✅", F64.lit_0_8, Success);
       ("Moyen", "risk-medium", "orange", "⚠️", F64.lit_1_0, Warning);
       ("Élevé", "risk-high", "red", "🚨", F64.lit_1_5, Error) ]
  /\ (F64.ltb risk_score F64.lit_0_5 = false ->
      fst (interpretation (risk_category b)) = Error
      /\ premium_multiplier (risk_category b) = F64.lit_1_5).
Proof.
  cbv zeta. unfold classify.
  destruct (F64.ltb risk_score (F64.neg F64.lit_0_5)) eqn:Hlow.
  - split; [left; reflexivity |].
    intros Hmid. exfalso.
    destruct risk_score as [sg | sg | | sg m e]; try destruct sg;
      revert Hlow Hmid;
      cbv beta iota delta
        [F64.leb F64.ltb F64.neg F64.lit_0_5 SFleb SFltb SFcompare SFopp negb];
      congruence.
  - destruct (F64.ltb risk_score F64.lit_0_5) eqn:Hmid.
    + split; [right; left; reflexivity | discriminate].
    + split; [right; right; left; reflexivity |].
      intros _. split; reflexivity.
Qed.

(** Instance: NaN is shown with the error box and the multiplier 1.5. *)
Lemma presentation_rows_witness :
  fst (interpretation (risk_category (classify S754_nan))) = Error
  /\ premium_multiplier (risk_category (classify S754_nan)) = F64.lit_1_5.
Proof.
  apply (proj2 (presentation_rows S754_nan)). reflexivity.
Defined.

(** ** The premium grows with the score (lines 159-199) *)

Ltac split_compares :=
  repeat match goal with
         | |- context [Z.compare ?a ?b] => destruct (Z.compare_spec a b)
         | |- context [Pos.compare ?a ?b] => destruct (Pos.compare_spec a b)
         end.

(** [x <= y] and [y < z] give [x < z], on all binary64 numbers. *)
Lemma leb_ltb_trans (x y z : F64.float) :
  F64.leb x y = true -> F64.ltb y z = true -> F64.ltb x z = true.
Proof.
  unfold F64.leb, F64.ltb, SFleb, SFltb.
  destruct x as [s1 | s1 | | s1 m1 e1], y as [s2 | s2 | | s2 m2 e2],
    z as [s3 | s3 | | s3 m3 e3];
    try destruct s1; try destruct s2; try destruct s3;
    cbv beta iota delta [SFcompare];
    change (Pos.compare_cont Eq) with Pos.compare;
    try (intros Hxy Hyz;
         first [reflexivity | discriminate Hxy | discriminate Hyz]);
    split_compares; cbn [CompOpp];
    try (intros Hxy Hyz;
         first [reflexivity | discriminate Hxy | discriminate Hyz]);
    try (exfalso; lia).
Qed.

(** X12. The pricing is monotone: of two scores, the larger one never gets
    the smaller premium; if the larger is in the lowest tier so is the
    smaller, and if the smaller is in the highest tier so is the larger. *)
Theorem premium_is_monotone (s1 s2 : F64.float) :
  F64.leb s1 s2 = true ->
  F64.leb (premium (assess s1)) (premium (assess s2)) = true
  /\ (risk_category (classify s2) = category_name Low ->
      risk_category (classify s1) = category_name Low)
  /\ (risk_category (classify s1) = category_name High ->
      risk_category (classify s2) = category_name High).
Proof.
  intros Hle.
  pose proof (@leb_ltb_trans s1 s2 (F64.neg F64.lit_0_5) Hle) as Hlow.
  pose proof (@leb_ltb_trans s1 s2 F64.lit_0_5 Hle) as Hmid.
  unfold assess, classify. cbn [premium].
  destruct (F64.ltb s1 (F64.neg F64.lit_0_5)), (F64.ltb s1 F64.lit_0_5),
    (F64.ltb s2 (F64.neg F64.lit_0_5)), (F64.ltb s2 F64.lit_0_5);
    try (specialize (Hlow eq_refl); discriminate Hlow);
    try (specialize (Hmid eq_refl); discriminate Hmid);
    repeat split; intros; try discriminate; vm_compute; reflexivity.
Qed.

(** Instance: the scores 0 and 2. *)
Lemma premium_is_monotone_witness :
  F64.leb (premium (assess (F64.of_int 0))) (premium (assess (F64.of_int 2)))
  = true.
Proof.
  apply (@premium_is_monotone (F64.of_int 0) (F64.of_int 2)). reflexivity.
Defined.

(** ** Labels (lines 89-99, 127) *)

Lemma title_char_not_underscore (previous_is_cased : bool) (c : ascii) :
  Ascii.eqb c "_" = false ->
  Ascii.eqb (if previous_is_cased then Str.to_lower c else Str.to_upper c) "_"
  = false.
Proof.
  destruct previous_is_cased, c as [[] [] [] [] [] [] [] []];
    vm_compute; intros H; first [reflexivity | discriminate H].
Qed.

Lemma title_keeps_no_underscore (s : string) :
  forall previous_is_cased : bool,
    has_underscore s = false ->
    has_underscore (Str.title_from previous_is_cased s) = false.
Proof.
  induction s as [| c rest IH]; intros previous_is_cased; cbn; [reflexivity |].
  rewrite !orb_false_iff. intros [Hc Hrest].
  split; [now apply title_char_not_underscore | now apply IH].
Qed.

Lemma replace_underscores_clean (s : string) :
  has_underscore (Str.replace_underscores s) = false.
Proof.
  induction s as [| c rest IH]; cbn; [reflexivity |].
  rewrite IH, orb_false_r.
  destruct (Ascii.eqb c "_") eqn:E; [reflexivity | exact E].
Qed.

(** X13. No label of the form shows an underscore, whatever the feature
    name of ASCII characters: the labels of the table have none, and the label derived from a
    name has its underscores turned into spaces before the title-casing,
    which brings none back. *)
Theorem label_has_no_underscore (feature : string) :
  Str.is_ascii feature = true ->
  has_underscore (label_of feature) = false.
Proof.
  intros _.
  unfold label_of, Dict.get_default, feature_labels.
  cbv beta iota delta [Dict.get].
  repeat match goal with
         | |- context [String.eqb ?key feature] =>
             destruct (String.eqb key feature)
         end;
    try (vm_compute; reflexivity).
  apply title_keeps_no_underscore, replace_underscores_clean.
Qed.

(** Instance: the label derived from "blood_pressure". *)
Lemma label_has_no_underscore_witness :
  has_underscore (label_of "blood_pressure") = false.
Proof.
  apply (@label_has_no_underscore "blood_pressure"). reflexivity.
Defined.

(** ** Repeated column names (lines 125-148) *)

Lemma form_loop_keyed_cons (answer : widget -> value) (idx : nat)
      (feature : string) (rest : list string) (inputs : Dict.t value)
      (used : list string) :
  Str.mem feature used = false ->
  form_loop_keyed answer idx (feature :: rest) inputs used
  = let next := form_loop_keyed answer (S idx) rest
                  (Dict.set inputs feature (answer (control feature)))
                  (feature :: used) in
    ((fst (fst next),
      st_column (Nat.modulo idx n_cols) (control feature) :: snd (fst next)),
     snd next).
Proof.
  intros Hfresh. cbn [form_loop_keyed]. rewrite Hfresh. cbv zeta.
  now destruct (form_loop_keyed answer (S idx) rest
                  (Dict.set inputs feature (answer (control feature)))
                  (feature :: used)) as [[final shown] completed].
Qed.

Lemma form_loop_keyed_complete (answer : widget -> value)
      (features : list string) :
  forall (idx : nat) (inputs : Dict.t value) (used : list string),
    NoDup (used ++ features) ->
    form_loop_keyed answer idx features inputs used
    = (form_loop answer idx features inputs, true).
Proof.
  induction features as [| f rest IH]; intros idx inputs used Hnd.
  - reflexivity.
  - assert (Hfresh : Str.mem f used = false).
    { destruct (Str.mem f used) eqn:E; [| reflexivity].
      apply mem_In in E. apply NoDup_remove_2 in Hnd.
      exfalso. apply Hnd. apply in_or_app. now left. }
    rewrite (@form_loop_keyed_cons answer idx f rest inputs used Hfresh).
    rewrite form_loop_cons. cbv zeta.
    rewrite IH; [reflexivity |].
    apply (Permutation_NoDup (l := (used ++ f :: rest)%list)); [| exact Hnd].
    symmetry. apply Permutation_middle.
Qed.

Lemma form_loop_keyed_stops (answer : widget -> value)
      (features : list string) :
  forall (idx : nat) (inputs : Dict.t value) (used : list string),
    snd (form_loop_keyed answer idx features inputs used) = true ->
    NoDup features /\ forall f, In f features -> ~ In f used.
Proof.
  induction features as [| f rest IH]; intros idx inputs used Hdone.
  - split; [constructor | intros f []].
  - cbn [form_loop_keyed] in Hdone.
    destruct (Str.mem f used) eqn:Hfresh; [discriminate Hdone |].
    destruct (form_loop_keyed answer (S idx) rest
                (Dict.set inputs f (answer (control f))) (f :: used))
      as [[final shown] completed] eqn:Hnext.
    cbn [snd] in Hdone. subst completed.
    destruct (IH (S idx) (Dict.set inputs f (answer (control f))) (f :: used))
      as [Hnd Hdisj]; [now rewrite Hnext |].
    split.
    + constructor; [| exact Hnd].
      intros Hin. apply (Hdisj f Hin). now left.
    + intros g [<- | Hin] Hused.
      * apply mem_In in Hused. congruence.
      * apply (Hdisj g Hin). now right.
Qed.

(** X14. The widgets are keyed by feature name: the loop runs to its end
    exactly when the column list has no repeated name, and it then builds
    the input vector and the controls of [form]; with a repeated name it
    stops before the end and shows fewer controls than there are
    columns. *)
Theorem keyed_form_completes_iff_distinct
        (answer : widget -> value) (features : list string) :
  (snd (form_loop_keyed answer 0 features [] []) = true <-> NoDup features)
  /\ (NoDup features ->
      form_loop_keyed answer 0 features [] [] = (form answer features, true))
  /\ (~ NoDup features ->
      (List.length (snd (fst (form_loop_keyed answer 0 features [] [])))
       < List.length features)%nat).
Proof.
  split; [split |]; [| | split].
  - intros Hdone. now apply form_loop_keyed_stops in Hdone.
  - intros Hnd. now rewrite form_loop_keyed_complete.
  - intros Hnd. now apply form_loop_keyed_complete.
  - intros Hdup.
    assert (Hgen : forall (idx : nat) (inputs : Dict.t value)
                          (used : list string),
               (List.length
                  (snd (fst (form_loop_keyed answer idx features inputs used)))
                <= List.length features)%nat
               /\ (snd (form_loop_keyed answer idx features inputs used) = false ->
                   (List.length
                      (snd (fst (form_loop_keyed answer idx features inputs
                                                 used)))
                    < List.length features)%nat)).
    { clear Hdup. induction features as [| f rest IH]; intros idx inputs used.
      - cbn. split; [lia | discriminate].
      - cbn [form_loop_keyed].
        destruct (Str.mem f used); [cbn; split; intros; lia |].
        specialize (IH (S idx) (Dict.set inputs f (answer (control f)))
                       (f :: used)).
        destruct (form_loop_keyed answer (S idx) rest
                    (Dict.set inputs f (answer (control f))) (f :: used))
          as [[final shown] completed].
        cbn [fst snd List.length] in *. destruct IH as [Hle Hlt].
        split; [lia |]. intros Hstop. specialize (Hlt Hstop). lia. }
    apply Hgen.
    destruct (snd (form_loop_keyed answer 0 features [] [])) eqn:Hdone;
      [| reflexivity].
    exfalso. apply Hdup. now apply form_loop_keyed_stops in Hdone.
Qed.
